(** * top1::result — a shallow embedding of [src/util/result.hpp]

    The header defines one class template, [result<Ok, Err>], a thin wrapper
    around [std::variant<Ok, Err>] with Rust-flavoured combinators.  The
    embedding keeps three things of the C++ text visible:

    - [std::get] is partial: on the wrong alternative it throws
      [std::bad_variant_access].  Every member function is therefore a
      computation that may throw, and the fact that none of them does is a
      theorem, not a typing accident.
    - callables supplied by the caller may have side effects and may throw.
      They are computations over a caller-chosen world [W]; whether a
      callable ran is observable through that world.
    - a [return e;] whose operand is not of the declared return type goes
      through an implicit conversion.  The conversions the class offers are
      its converting constructors; they are instances of [Convertible]. *)

From Stdlib Require Import Bool ZArith String.

Set Implicit Arguments.
Local Open Scope string_scope.
Local Open Scope Z_scope.

(** ** The slice of the C++ runtime the header uses *)

Module std.

(** What a C++ expression can throw here: [std::get] on the wrong
    alternative, or whatever a caller-supplied callable throws. *)
Inductive exception : Type :=
| bad_variant_access
| callable_exception (what : string).

Inductive outcome (A : Type) : Type :=
| Returned (a : A)
| Thrown (x : exception).
Arguments Thrown {A} x.

(** A computation over the caller's world [W].  A throw keeps the side
    effects performed before it. *)
Definition M (W A : Type) : Type := W -> outcome A * W.

Definition ret {W A} (a : A) : M W A := fun w => (Returned a, w).

Definition throw {W A} (x : exception) : M W A := fun w => (Thrown x, w).

Definition bind {W A B} (m : M W A) (k : A -> M W B) : M W B :=
  fun w =>
    match m w with
    | (Returned a, w') => k a w'
    | (Thrown x, w') => (Thrown x, w')
    end.

Definition nothrow {A} (o : outcome A) : bool :=
  match o with
  | Returned _ => true
  | Thrown _ => false
  end.

(** [std::optional<T>] is [option T]; [has_value] is its test. *)
Definition has_value {A} (o : option A) : bool :=
  match o with
  | Some _ => true
  | None => false
  end.

(** [std::variant<T0, T1>] holding one of its two alternatives.  The
    valueless state only arises from a payload constructor throwing during
    assignment or emplacement; the header does neither. *)
Inductive variant (T0 T1 : Type) : Type :=
| alt0 (x : T0)
| alt1 (y : T1).
Arguments alt0 {T0 T1} x.
Arguments alt1 {T0 T1} y.

Section Variant.
Context {W T0 T1 : Type}.

(** [std::holds_alternative<T0>(v)], [std::holds_alternative<T1>(v)] *)
Definition holds_alternative0 (v : variant T0 T1) : bool :=
  match v with alt0 _ => true | alt1 _ => false end.

Definition holds_alternative1 (v : variant T0 T1) : bool :=
  match v with alt0 _ => false | alt1 _ => true end.

(** [std::get<T0>(v)], [std::get<T1>(v)] *)
Definition get0 (v : variant T0 T1) : M W T0 :=
  match v with
  | alt0 x => ret x
  | alt1 _ => throw bad_variant_access
  end.

Definition get1 (v : variant T0 T1) : M W T1 :=
  match v with
  | alt0 _ => throw bad_variant_access
  | alt1 y => ret y
  end.

End Variant.

(** [std::invoke(f, args...)]: the argument pack is one value of type
    [Args] ([unit] for the empty pack, a tuple for several arguments). *)
Definition invoke {W Args R} (f : Args -> M W R) (args : Args) : M W R :=
  f args.

End std.

Import std.

Declare Scope cxx_scope.
Delimit Scope cxx_scope with cxx.
Notation "x <- m ;; k" := (bind m (fun x => k))
  (at level 61, m at next level, right associativity) : cxx_scope.
Local Open Scope cxx_scope.

(** Implicit conversion of the operand of a [return] statement to the
    declared return type. *)
Class Convertible (From To : Type) : Type := convert : From -> To.

(** Returning a value of the declared type copies it. *)
#[export] Instance Convertible_copy (T : Type) : Convertible T T := fun x => x.

(** ** namespace top1 *)

Module top1.

(** [class result { std::variant<Ok, Err> data; ... }] *)
Record result (Ok Err : Type) : Type := mk_result { data : variant Ok Err }.
Arguments mk_result {Ok Err} data.

(** [result(const Ok&)], [result(Ok&&)] *)
Definition result_Ok {Ok Err} (ok : Ok) : result Ok Err :=
  mk_result (alt0 ok).

(** [result(const Err&)], [result(Err&&)] *)
Definition result_Err {Ok Err} (err : Err) : result Ok Err :=
  mk_result (alt1 err).

(** The converting constructors are what turns a payload into a result at
    a [return].  [result<T, T>] does not exist (the two constructor pairs
    would redeclare each other), so at most one of them takes an operand
    whose type is exactly a payload type. *)
#[export] Instance Convertible_result_Ok (Ok Err : Type)
  : Convertible Ok (result Ok Err) := result_Ok.

#[export] Instance Convertible_result_Err (Ok Err : Type)
  : Convertible Err (result Ok Err) := result_Err.

Section Members.
Context {W Ok Err : Type}.
Implicit Type self : result Ok Err.

Definition is_ok self : bool := holds_alternative0 (data self).

Definition is_err self : bool := holds_alternative1 (data self).

Definition ok self : M W (option Ok) :=
  if is_ok self then
    x <- get0 (data self) ;; ret (Some x)
  else
    ret None.

Definition err self : M W (option Err) :=
  if is_err self then
    e <- get1 (data self) ;; ret (Some e)
  else
    ret None.

(** [map]: the declared return type is [result<U, Err>] with [U] the type
    [op] returns.  [return *this;] converts the receiver, a
    [result<Ok, Err>], to that type.  The class has no constructor from
    another instantiation of [result]: the conversion is the copy when
    [U = Ok], and the constructor from an Ok payload when [U] is
    [result<Ok, Err>] itself. *)
Definition map {U} {conv : Convertible (result Ok Err) (result U Err)}
    self (op : Ok -> M W U) : M W (result U Err) :=
  if is_ok self then
    x <- get0 (data self) ;;
    u <- invoke op x ;;
    ret (convert u)
  else
    ret (convert self).

Definition map_err {F} {conv : Convertible (result Ok Err) (result Ok F)}
    self (op : Err -> M W F) : M W (result Ok F) :=
  if is_err self then
    e <- get1 (data self) ;;
    u <- invoke op e ;;
    ret (convert u)
  else
    ret (convert self).

(** [operator&&]: both operands already exist when it runs. *)
Definition operator_and {Ok2} self (r : result Ok2 Err)
    : M W (result Ok2 Err) :=
  if is_ok self then
    ret r
  else
    e <- get1 (data self) ;; ret (convert e).

(** [and_then]: the return type [R] is whatever [f] returns on [args...];
    the [Err] payload has to convert to it. *)
Definition and_then {Args R} {conv : Convertible Err R}
    self (f : Args -> M W R) (args : Args) : M W R :=
  if is_ok self then
    invoke f args
  else
    e <- get1 (data self) ;; ret (convert e).

(** [operator||] *)
Definition operator_or {Ok2} {conv : Convertible Ok (result Ok2 Err)}
    self (r : result Ok2 Err) : M W (result Ok2 Err) :=
  if is_err self then
    ret r
  else
    x <- get0 (data self) ;; ret (convert x).

Definition or_else {Args R} {conv : Convertible Ok R}
    self (f : Args -> M W R) (args : Args) : M W R :=
  if is_err self then
    invoke f args
  else
    x <- get0 (data self) ;; ret (convert x).

(** [Ok get_or(const Ok& def) const], the overload taken for an lvalue
    default.  The other one, [Ok&& get_or(Ok&& def) const], returns the
    const lvalue [std::get<Ok>(data)] as an [Ok&&]; no instantiation of it
    is well-formed, so it has no behaviour to embed. *)
Definition get_or self (def : Ok) : M W Ok :=
  if is_ok self then
    get0 (data self)
  else
    ret def.

(** [get_or_else]: enabled when [f]'s result converts to [Ok]. *)
Definition get_or_else {Args R} {conv : Convertible R Ok}
    self (f : Args -> M W R) (args : Args) : M W Ok :=
  if is_ok self then
    get0 (data self)
  else
    v <- invoke f args ;; ret (convert v).

End Members.

End top1.

Import top1.

(** ** Test fixtures: the callables of the concrete scenarios *)

(** A side-effect counter wrapped around a callable: each invocation bumps
    the second component of the world, whatever the callable itself does. *)
Definition counted {W Args R} (f : Args -> M W R) : Args -> M (W * nat) R :=
  fun args wn =>
    match f args (fst wn) with
    | (o, w') => (o, (w', S (snd wn)))
    end.

(** A callable without effects. *)
Definition pure {W A B} (f : A -> B) : A -> M W B := fun a => ret (f a).

(** Kleisli composition: [x -> g(f(x))] for callables with effects. *)
Definition compose {W A B C} (f : A -> M W B) (g : B -> M W C) : A -> M W C :=
  fun x => y <- f x ;; g y.

(** [x => x * 2] *)
Definition double {W} : Z -> M W Z := pure (fun x => x * 2).

(** [x => Ok(x * 2)], a callable that itself returns a result *)
Definition checked_double {W} : Z -> M W (result Z string) :=
  pure (fun x => result_Ok (x * 2)).

(** [x => x > 0 ? Ok(x + 1) : Err("neg")] *)
Definition step {W} : Z -> M W (result Z string) :=
  pure (fun x => if 0 <? x then result_Ok (x + 1) else result_Err "neg").

(** [e => Err(e + "!")], a handler for the Err path *)
Definition shout {W} : string -> M W (result Z string) :=
  pure (fun e => result_Err (e ++ "!")).

(** A callable whose parameter has a default can be invoked as [f()] and as
    [f(x)]: its argument pack is [None] or [Some x]. *)
Definition defaulted {W A R} (def : A) (f : A -> M W R) : option A -> M W R :=
  fun pack =>
    match pack with
    | Some a => f a
    | None => f def
    end.

(** [(int x = 0) => x > 0 ? Ok(x + 1) : Err("neg")] *)
Definition step_defaulted {W} : option Z -> M W (result Z string) :=
  defaulted 0 step.

(** [(string e = "y") => Err(e + "!")] *)
Definition shout_defaulted {W} : option string -> M W (result Z string) :=
  defaulted "y"%string shout.

(** [(args...) => throw what], a callable that never returns *)
Definition failing {W A R} (what : string) : A -> M W R :=
  fun _ => throw (callable_exception what).

(** * Properties *)

(** ** Bookkeeping *)

Create HintDb result_db.

#[local] Hint Unfold is_ok is_err ok err map map_err operator_and and_then
  operator_or or_else get_or get_or_else result_Ok result_Err
  invoke counted pure compose defaulted bind ret throw convert
  Convertible_copy Convertible_result_Ok Convertible_result_Err : result_db.

(** Unfold the members down to the [match] on the variant. *)
Ltac members := autounfold with result_db; cbn.

(** Split the receiver into its two shapes and run each. *)
Ltac by_variant r := destruct r as [[?x | ?e]]; members.

(** Every result is built by one of the two constructor pairs. *)
Lemma result_cases {Ok Err} (r : result Ok Err) :
  {x | r = result_Ok x} + {e | r = result_Err e}.
Proof.
  destruct r as [[x | e]]; [left; exists x | right; exists e]; reflexivity.
Qed.

(** ** Inspection *)

Section Inspection.
Context {W Ok Err : Type}.

(** C7 — inspection consistency.  For every result [r]: exactly one of
    [is_ok], [is_err] is true; [ok()] returns normally, leaves the world
    alone, and its optional has a value exactly when [is_ok] (then it is the
    Ok payload stored in [data]); [err()] is the same on the Err side. *)
Theorem C7_inspection_consistency (r : result Ok Err) (w : W) :
  xorb (is_ok r) (is_err r) = true
  /\ (exists o : option Ok,
        ok r w = (Returned o, w)
        /\ has_value o = is_ok r
        /\ match o with
           | Some x => data r = alt0 x
           | None => is_err r = true
           end)
  /\ (exists o : option Err,
        err r w = (Returned o, w)
        /\ has_value o = is_err r
        /\ match o with
           | Some e => data r = alt1 e
           | None => is_ok r = true
           end).
Proof.
  by_variant r.
  - split; [reflexivity | split].
    + exists (Some x). repeat split.
    + exists None. repeat split.
  - split; [reflexivity | split].
    + exists None. repeat split.
    + exists (Some e). repeat split.
Qed.

End Inspection.

(** ** Totality *)

Section Totality.
Context {W Ok Err : Type}.

(** [std::get<Ok>] under [if (is_ok())] finds its alternative. *)
Lemma get0_guarded (r : result Ok Err) (w : W) :
  is_ok r = true ->
  exists x, data r = alt0 x /\ get0 (data r) w = (Returned x, w).
Proof.
  by_variant r; intros H; [exists x; split; reflexivity | discriminate H].
Qed.

(** [std::get<Err>] under [if (is_err())], or in the [else] of
    [if (is_ok())], finds its alternative. *)
Lemma get1_guarded (r : result Ok Err) (w : W) :
  is_err r = true \/ is_ok r = false ->
  exists e, data r = alt1 e /\ get1 (data r) w = (Returned e, w).
Proof.
  by_variant r; intros [H | H]; try discriminate H;
    exists e; split; reflexivity.
Qed.

(** C8 — totality of the whole interface.  [is_ok] and [is_err] are plain
    boolean functions ([std::holds_alternative] cannot throw).  Each of the
    other members, on either variant and in any world, returns normally
    unless it invoked a caller-supplied callable and that callable threw:
    no [std::get] ever reaches [std::bad_variant_access].  The members that
    take no callable always return normally.  [get_or] is the
    const-reference overload. *)
Theorem C8_total_interface (r : result Ok Err) (w : W) :
  nothrow (fst (ok r w)) = true
  /\ nothrow (fst (err r w)) = true
  /\ (forall U (conv : Convertible (result Ok Err) (result U Err))
        (op : Ok -> M W U),
        nothrow (fst (map r op w)) =
        match data r with
        | alt0 x => nothrow (fst (op x w))
        | alt1 _ => true
        end)
  /\ (forall F (conv : Convertible (result Ok Err) (result Ok F))
        (op : Err -> M W F),
        nothrow (fst (map_err r op w)) =
        match data r with
        | alt0 _ => true
        | alt1 e => nothrow (fst (op e w))
        end)
  /\ (forall Ok2 (b : result Ok2 Err),
        nothrow (fst (operator_and r b w)) = true)
  /\ (forall Args R (conv : Convertible Err R) (f : Args -> M W R) args,
        nothrow (fst (and_then r f args w)) =
        if is_ok r then nothrow (fst (f args w)) else true)
  /\ (forall Ok2 (conv : Convertible Ok (result Ok2 Err)) (b : result Ok2 Err),
        nothrow (fst (operator_or r b w)) = true)
  /\ (forall Args R (conv : Convertible Ok R) (f : Args -> M W R) args,
        nothrow (fst (or_else r f args w)) =
        if is_err r then nothrow (fst (f args w)) else true)
  /\ (forall def, nothrow (fst (get_or r def w)) = true)
  /\ (forall Args R (conv : Convertible R Ok) (f : Args -> M W R) args,
        nothrow (fst (get_or_else r f args w)) =
        if is_ok r then true else nothrow (fst (f args w))).
Proof.
  by_variant r; repeat split; intros; members;
    try reflexivity;
    match goal with
    | |- context [?f ?a w] => destruct (f a w) as [[? | ?] ?]; reflexivity
    end.
Qed.

End Totality.

(** ** map *)

Section Map.
Context {W Ok Err : Type}.

(** In the Ok branch [map] runs [op] on the payload and wraps what it
    returns; the conversion of the receiver is not used there. *)
Lemma map_Ok {U} {conv : Convertible (result Ok Err) (result U Err)}
    (x : Ok) (op : Ok -> M W U) (w : W) :
  map (result_Ok x) op w = (y <- op x ;; ret (result_Ok y)) w.
Proof. reflexivity. Qed.

(** In the Err branch [map] returns the converted receiver without running
    [op]. *)
Lemma map_Err {U} {conv : Convertible (result Ok Err) (result U Err)}
    (e : Err) (op : Ok -> M W U) (w : W) :
  map (result_Err e) op w = (Returned (convert (result_Err e)), w).
Proof. reflexivity. Qed.

(** The contract of [map] where it holds.  On [Ok(x)], for [op] returning
    any [U], [map(op)] invokes [op] on [x] and yields [Ok] of what [op]
    returned, typed [result<U, Err>].  On [Err(e)], for [op] returning [Ok],
    it yields [Err(e)] and [op] is not invoked. *)
Lemma map_contract_same_Ok_type :
  (forall U (conv : Convertible (result Ok Err) (result U Err))
      (op : Ok -> M W U) (x : Ok) (w : W),
      map (result_Ok x) op w
      = (y <- op x ;; ret (result_Ok y : result U Err)) w)
  /\ (forall U (conv : Convertible (result Ok Err) (result U Err))
        (f : Ok -> U) (x : Ok) (w : W),
        map (result_Ok x) (pure f) w
        = (Returned (result_Ok (f x) : result U Err), w))
  /\ (forall (op : Ok -> M W Ok) (e : Err) (w : W),
        map (result_Err e) op w = (Returned (result_Err e), w))
  /\ (forall (op : Ok -> M W Ok) (e : Err) (w : W) (n : nat),
        map (result_Err e) (counted op) (w, n)
        = (Returned (result_Err e), (w, n))).
Proof.
  split; [| split; [| split]]; intros.
  - apply map_Ok.
  - rewrite map_Ok. reflexivity.
  - reflexivity.
  - reflexivity.
Qed.

(** C5 — where [map] departs from its contract.  For a callable returning
    [result<Ok, Err>] the declared type is
    [result<result<Ok, Err>, Err>], and on [Err(e)] the [return *this;]
    builds the Ok alternative around the receiver: the outcome is
    [Ok(Err(e))], it answers [is_ok()], and [err()] finds no payload.  The
    callable is not invoked. *)
Theorem C5_map_Err_comes_back_Ok
    (op : Ok -> M W (result Ok Err)) (e : Err) (w : W) :
  map (result_Err e) op w = (Returned (result_Ok (result_Err e)), w)
  /\ is_ok (result_Ok (result_Err e : result Ok Err)
            : result (result Ok Err) Err) = true
  /\ err (result_Ok (result_Err e : result Ok Err)
          : result (result Ok Err) Err) w = (Returned None, w)
  /\ map (result_Err e) op w
     <> (Returned (result_Err e : result (result Ok Err) Err), w).
Proof.
  repeat split. discriminate.
Qed.

(** X18 — the functor laws of [map], for every type [g] returns.  Mapping
    the identity returns the receiver and touches nothing.  Mapping [f] and then
    [g] is mapping [x -> g(f(x))]: the two runs agree on result, world and
    throws.  For effect-free [p], [q] on [Ok(x)] both are [Ok(q(p(x)))].  On
    [Err(e)] neither callable is invoked, and both sides are the receiver as
    [return *this;] converts it to [g]'s result type; for [g] from [Ok] to
    [Ok] that is [Err(e)]. *)
Theorem X18_map_functor_laws (r : result Ok Err) (w : W) :
  map r ret w = (Returned r, w)
  /\ (forall V (conv : Convertible (result Ok Err) (result V Err))
        (f : Ok -> M W Ok) (g : Ok -> M W V),
        (r' <- map r f ;; map r' g) w = map r (compose f g) w)
  /\ (forall V (conv : Convertible (result Ok Err) (result V Err))
        (p : Ok -> Ok) (q : Ok -> V) (x : Ok),
        (r' <- map (result_Ok x) (pure p) ;; map r' (pure q)) w
        = (Returned (result_Ok (q (p x)) : result V Err), w)
        /\ map (result_Ok x) (pure (fun x => q (p x))) w
           = (Returned (result_Ok (q (p x)) : result V Err), w))
  /\ (forall V (conv : Convertible (result Ok Err) (result V Err))
        (f : Ok -> M W Ok) (g : Ok -> M W V) (e : Err) (n : nat),
        (r' <- map (result_Err e) (counted f) ;; map r' (counted g)) (w, n)
        = (Returned (convert (result_Err e : result Ok Err)), (w, n))
        /\ map (result_Err e) (compose (counted f) (counted g)) (w, n)
           = (Returned (convert (result_Err e : result Ok Err)), (w, n)))
  /\ (forall (f g : Ok -> M W Ok) (e : Err) (n : nat),
        (r' <- map (result_Err e) (counted f) ;; map r' (counted g)) (w, n)
        = (Returned (result_Err e), (w, n))
        /\ map (result_Err e) (compose (counted f) (counted g)) (w, n)
           = (Returned (result_Err e), (w, n))).
Proof.
  split; [| split; [| split; [| split]]].
  - by_variant r; reflexivity.
  - intros V conv f g. destruct (result_cases r) as [[x ->] | [e ->]].
    + members. destruct (f x w) as [[y | t] w']; reflexivity.
    + reflexivity.
  - intros V conv p q x; split; reflexivity.
  - intros V conv f g e n; split; reflexivity.
  - intros f g e n; split; reflexivity.
Qed.

(** C6 — where the functor laws' Err clause departs from the code.  For
    [f] from [Ok] to [Ok] and [g] returning a [result<Ok, Err>], on [Err(e)]
    both [r.map(f).map(g)] and [r.map(x -> g(f(x)))] are [Ok(Err(e))], not
    the receiver unchanged: the outcome answers [is_ok()] and differs from
    [Err(e)] of the same type.  The two sides still agree with each other
    and neither callable is invoked. *)
Theorem C6_map_chain_Err_comes_back_Ok
    (f : Ok -> M W Ok) (g : Ok -> M W (result Ok Err)) (e : Err) (w : W)
    (n : nat) :
  (r' <- map (result_Err e) (counted f) ;; map r' (counted g)) (w, n)
  = (Returned (result_Ok (result_Err e)), (w, n))
  /\ map (result_Err e) (compose (counted f) (counted g)) (w, n)
     = (Returned (result_Ok (result_Err e)), (w, n))
  /\ is_ok (result_Ok (result_Err e : result Ok Err)
            : result (result Ok Err) Err) = true
  /\ (r' <- map (result_Err e) (counted f) ;; map r' (counted g)) (w, n)
     <> (Returned (result_Err e : result (result Ok Err) Err), (w, n))
  /\ map (result_Err e) (compose (counted f) (counted g)) (w, n)
     <> (Returned (result_Err e : result (result Ok Err) Err), (w, n)).
Proof.
  repeat split; discriminate.
Qed.

End Map.

(** [Result.Ok(5).map(x => x*2)] is [Ok(10)]. *)
Example map_Ok_5_double :
  map (result_Ok 5 : result Z string) double tt = (Returned (result_Ok 10), tt).
Proof. reflexivity. Qed.

(** [Result.Err("boom").map(x => x*2)] is [Err("boom")]; the doubling never
    ran. *)
Example map_Err_boom_double :
  map (result_Err "boom" : result Z string) (counted double) (tt, O)
  = (Returned (result_Err "boom"), (tt, O)).
Proof. reflexivity. Qed.

(** [Result.Err("boom").map(x => Ok(x*2))] is [Ok(Err("boom"))]. *)
Example map_Err_boom_checked_double :
  map (result_Err "boom" : result Z string) checked_double tt
  = (Returned (result_Ok (result_Err "boom")), tt).
Proof. reflexivity. Qed.

(** ** and_then *)

Section AndThen.
Context {W Ok Err Args : Type}.

(** C1, as amended — what [and_then] does on [Ok(x)].  It invokes [f] once,
    on the argument pack the caller supplied, and returns what [f] returns
    (result, world and throws alike).  The payload [x] is not handed to [f]:
    the outcome is the same for every payload.  [Ok(x).and_then(f, x)], with
    the payload passed as the argument, is [f(x)]. *)
Theorem C1_and_then_Ok_invokes_on_args :
  (forall R (conv : Convertible Err R) (f : Args -> M W R)
      (x : Ok) (args : Args) (w : W),
      and_then (result_Ok x) f args w = f args w)
  /\ (forall R (conv : Convertible Err R) (f : Args -> M W R)
        (x : Ok) (args : Args) (w : W) (n : nat),
        and_then (result_Ok x) (counted f) args (w, n)
        = (fst (f args w), (snd (f args w), S n)))
  /\ (forall R (conv : Convertible Err R) (f : Args -> M W R)
        (x x' : Ok) (args : Args) (w : W),
        and_then (result_Ok x) f args w = and_then (result_Ok x') f args w)
  /\ (forall R (conv : Convertible Err R) (f : Ok -> M W R) (x : Ok) (w : W),
        and_then (result_Ok x) f x w = f x w).
Proof.
  repeat split; intros; members; try reflexivity.
  destruct (f args w); reflexivity.
Qed.

(** C3 — [and_then(f, args...)] for a callable returning [result<Ok2, Err>].
    On [Ok(x)] it invokes [f] with exactly [args] and returns [f]'s result
    directly, having invoked it once.  On [Err(e)] it returns [Err(e)] in the
    new result type, whatever [f] would have done, and [f] is not invoked:
    the world and the invocation counter are unchanged. *)
Theorem C3_and_then_contract {Ok2}
    (f : Args -> M W (result Ok2 Err)) (args : Args) (w : W) :
  (forall x : Ok,
      and_then (result_Ok x : result Ok Err) f args w = f args w
      /\ snd (snd (and_then (result_Ok x : result Ok Err)
                     (counted f) args (w, O))) = 1%nat)
  /\ (forall e : Err,
        and_then (result_Err e : result Ok Err) f args w
        = (Returned (result_Err e : result Ok2 Err), w)
        /\ and_then (result_Err e : result Ok Err) (counted f) args (w, O)
           = (Returned (result_Err e : result Ok2 Err), (w, O))).
Proof.
  split; intros; split; members; try reflexivity.
  destruct (f args w); reflexivity.
Qed.

(** C4 — short-circuit on failure.  For every payload [e] and callable [f]
    (even one that would throw), [Err(e).and_then(f)] returns normally with
    [Err(e)], and a counter around [f] keeps the value it had. *)
Theorem C4_and_then_short_circuit {Ok2}
    (e : Err) (f : Args -> M W (result Ok2 Err)) (args : Args) (w : W)
    (n : nat) :
  and_then (result_Err e : result Ok Err) f args w
  = (Returned (result_Err e), w)
  /\ and_then (result_Err e : result Ok Err) (counted f) args (w, n)
     = (Returned (result_Err e), (w, n))
  /\ err (result_Err e : result Ok2 Err) w = (Returned (Some e), w).
Proof.
  repeat split.
Qed.

End AndThen.

(** C1, as stated, fails.  [Ok(x).and_then(f)] supplies the empty argument
    pack, so [f] is invoked as [f()].  For the scenario's callable with a
    defaulted parameter, [(int x = 0) => x > 0 ? Ok(x+1) : Err("neg")], on
    [Ok(5)] the call yields [f() = Err("neg")] where [f(5)] is [Ok(6)]. *)
Lemma C1_and_then_payload_not_passed :
  ~ (forall (x : Z) (f : option Z -> M unit (result Z string)) (w : unit),
        and_then (result_Ok x : result Z string) f None w = f (Some x) w).
Proof.
  intros H. specialize (H 5 step_defaulted tt). discriminate H.
Qed.

(** The same with an explicit argument: [Ok(5).and_then(f, 0)] is [f(0)],
    not [f(5)]. *)
Lemma and_then_Ok_5_step_0 :
  and_then (result_Ok 5 : result Z string) step 0 tt
  = (Returned (result_Err "neg"), tt)
  /\ step 5 tt = (Returned (result_Ok 6 : result Z string), tt).
Proof. split; reflexivity. Qed.

(** [Result.Ok(5).and_then(f, 5)] with the scenario's [f] is [Ok(6)]. *)
Example and_then_Ok_5_step :
  and_then (result_Ok 5 : result Z string) step 5 tt
  = (Returned (result_Ok 6), tt).
Proof. reflexivity. Qed.

(** [Result.Err("boom").and_then(anyFn)] is [Err("boom")] and the call count
    of [anyFn] stays 0. *)
Example and_then_Err_boom :
  and_then (result_Err "boom" : result Z string) (counted step) 5 (tt, O)
  = (Returned (result_Err "boom"), (tt, O)).
Proof. reflexivity. Qed.

(** The conversion at the [return] of the Err branch is chosen by the type
    [f] returns.  The two theorems above are about callables that keep the
    receiver's Err type; for a callable returning [result<Err, E2>] the one
    converting constructor that takes an [Err] is the Ok one. *)
Remark and_then_Err_conversion_follows_return_type :
  and_then (result_Err "boom" : result Z string)
    (fun _ : unit => ret (result_Ok "fine" : result string Z)) tt tt
  = (Returned (result_Ok "boom"), tt).
Proof. reflexivity. Qed.

(** ** or_else *)

Section OrElse.
Context {W Ok Err Args : Type}.

(** C2, as amended — [or_else] on the two variants.  On [Ok(x)], for a
    callable returning [result<Ok, Err2>], it returns [Ok(x)] and does not
    invoke [f].  On [Err(e)] it invokes [f] once on the argument pack the
    caller supplied and returns what [f] returns; the payload [e] is not
    handed to [f], so the outcome is the same for every [e].
    [Err(e).or_else(f, e)], with the payload passed as the argument, is
    [f(e)]. *)
Theorem C2_or_else_contract :
  (forall Err2 (f : Args -> M W (result Ok Err2))
      (x : Ok) (args : Args) (w : W) (n : nat),
      or_else (result_Ok x : result Ok Err) f args w
      = (Returned (result_Ok x), w)
      /\ or_else (result_Ok x : result Ok Err) (counted f) args (w, n)
         = (Returned (result_Ok x), (w, n)))
  /\ (forall R (conv : Convertible Ok R) (f : Args -> M W R)
        (e : Err) (args : Args) (w : W) (n : nat),
        or_else (result_Err e : result Ok Err) f args w = f args w
        /\ or_else (result_Err e : result Ok Err) (counted f) args (w, n)
           = (fst (f args w), (snd (f args w), S n)))
  /\ (forall R (conv : Convertible Ok R) (f : Args -> M W R)
        (e e' : Err) (args : Args) (w : W),
        or_else (result_Err e : result Ok Err) f args w
        = or_else (result_Err e' : result Ok Err) f args w)
  /\ (forall R (conv : Convertible Ok R) (f : Err -> M W R) (e : Err) (w : W),
        or_else (result_Err e : result Ok Err) f e w = f e w).
Proof.
  repeat split; intros; members; try reflexivity.
  destruct (f args w); reflexivity.
Qed.

End OrElse.

(** C2, as stated, fails on the Err path.  [Err(e).or_else(f)] supplies the
    empty argument pack, so [f] is invoked as [f()].  For the handler
    [(string e = "y") => Err(e + "!")] on [Err("x")] the call yields
    [f() = Err("y!")] where [f("x")] is [Err("x!")]. *)
Lemma C2_or_else_payload_not_passed :
  ~ (forall (e : string) (f : option string -> M unit (result Z string))
        (w : unit),
        or_else (result_Err e : result Z string) f None w = f (Some e) w).
Proof.
  intros H. specialize (H "x"%string shout_defaulted tt). discriminate H.
Qed.

(** The same with an explicit argument: [Err("x").or_else(f, "y")] is
    [f("y")], not [f("x")]. *)
Lemma or_else_Err_x_shout_y :
  or_else (result_Err "x" : result Z string) shout "y"%string tt
  = (Returned (result_Err "y!"), tt)
  /\ shout "x"%string tt = (Returned (result_Err "x!" : result Z string), tt).
Proof. split; reflexivity. Qed.

(** ** The eager pair *)

Section EagerPair.
Context {W Ok Err : Type}.

(** C9 — [a && b] is [b] when [a] is Ok and [a]'s Err payload, as a
    [result<Ok2, Err>], otherwise; [a || b] is [b] when [a] is Err and [a]'s
    Ok value otherwise.  Both operands are values: nothing is evaluated and
    the world is untouched. *)
Theorem C9_eager_pair (w : W) :
  (forall Ok2 (x : Ok) (b : result Ok2 Err),
      operator_and (result_Ok x : result Ok Err) b w = (Returned b, w))
  /\ (forall Ok2 (e : Err) (b : result Ok2 Err),
        operator_and (result_Err e : result Ok Err) b w
        = (Returned (result_Err e : result Ok2 Err), w))
  /\ (forall Ok2 (conv : Convertible Ok (result Ok2 Err))
        (e : Err) (b : result Ok2 Err),
        operator_or (result_Err e : result Ok Err) b w = (Returned b, w))
  /\ (forall (x : Ok) (b : result Ok Err),
        operator_or (result_Ok x : result Ok Err) b w
        = (Returned (result_Ok x), w)).
Proof.
  repeat split.
Qed.

End EagerPair.

(** [Result.Ok(1) || Result.Ok(2)] is [Ok(1)]. *)
Example operator_or_Ok_1_Ok_2 :
  operator_or (result_Ok 1 : result Z string) (result_Ok 2) tt
  = (Returned (result_Ok 1), tt).
Proof. reflexivity. Qed.

(** [Result.Err("x") || Result.Ok(2)] is [Ok(2)]. *)
Example operator_or_Err_x_Ok_2 :
  operator_or (result_Err "x" : result Z string) (result_Ok 2) tt
  = (Returned (result_Ok 2), tt).
Proof. reflexivity. Qed.

(** ** Extraction with a fallback *)

Section GetOr.
Context {W Ok Err : Type}.

(** [get_or(def)] with an lvalue default returns the Ok payload when the
    receiver is Ok and [def] when it is Err, and leaves the world alone. *)
Lemma get_or_fallback (r : result Ok Err) (def : Ok) (w : W) :
  get_or r def w
  = (Returned (match data r with alt0 x => x | alt1 _ => def end), w).
Proof.
  by_variant r; reflexivity.
Qed.

End GetOr.

(** [int d = 42; Result.Err("boom").get_or(d)] is [42]. *)
Example get_or_Err_boom_42 :
  get_or (result_Err "boom" : result Z string) 42 tt = (Returned 42, tt).
Proof. reflexivity. Qed.

(** [int d = 42; Result.Ok(7).get_or(d)] is [7]. *)
Example get_or_Ok_7_42 :
  get_or (result_Ok 7 : result Z string) 42 tt = (Returned 7, tt).
Proof. reflexivity. Qed.

(** * Further properties *)

#[local] Hint Unfold failing double step shout checked_double : result_db.

(** ** map_err *)

Section MapErr.
Context {W Ok Err : Type}.

(** In the Err branch [map_err] runs [op] on the payload and wraps what it
    returns as the Err of the new type. *)
Lemma map_err_Err {F} {conv : Convertible (result Ok Err) (result Ok F)}
    (e : Err) (op : Err -> M W F) (w : W) :
  map_err (result_Err e) op w = (y <- op e ;; ret (result_Err y)) w.
Proof. reflexivity. Qed.

(** X1 — [map_err] is a functor on the Err side, for every type [g]
    returns.  Mapping the identity returns the receiver; mapping [f] and
    then [g] is mapping [e -> g(f(e))], with the same result, world and
    throws; an effect-free [p] sends [Err(e)] to [Err(p(e))].  On [Ok(x)]
    neither [f] nor [g] is invoked, and both sides are the receiver as
    [return *this;] converts it to [g]'s result type; for [g] from [Err] to
    [Err] that is [Ok(x)]. *)
Theorem X1_map_err_functor_laws (r : result Ok Err) (w : W) :
  map_err r ret w = (Returned r, w)
  /\ (forall G (conv : Convertible (result Ok Err) (result Ok G))
        (f : Err -> M W Err) (g : Err -> M W G),
        (r' <- map_err r f ;; map_err r' g) w = map_err r (compose f g) w)
  /\ (forall F (conv : Convertible (result Ok Err) (result Ok F))
        (p : Err -> F) (e : Err),
        map_err (result_Err e) (pure p) w
        = (Returned (result_Err (p e) : result Ok F), w))
  /\ (forall G (conv : Convertible (result Ok Err) (result Ok G))
        (f : Err -> M W Err) (g : Err -> M W G) (x : Ok) (n : nat),
        (r' <- map_err (result_Ok x) (counted f) ;; map_err r' (counted g))
          (w, n)
        = (Returned (convert (result_Ok x : result Ok Err)), (w, n))
        /\ map_err (result_Ok x) (compose (counted f) (counted g)) (w, n)
           = (Returned (convert (result_Ok x : result Ok Err)), (w, n)))
  /\ (forall (f g : Err -> M W Err) (x : Ok) (n : nat),
        (r' <- map_err (result_Ok x) (counted f) ;; map_err r' (counted g))
          (w, n)
        = (Returned (result_Ok x), (w, n))
        /\ map_err (result_Ok x) (compose (counted f) (counted g)) (w, n)
           = (Returned (result_Ok x), (w, n))).
Proof.
  split; [| split; [| split; [| split]]].
  - by_variant r; reflexivity.
  - intros G conv f g. destruct (result_cases r) as [[x ->] | [e ->]].
    + reflexivity.
    + members. destruct (f e w) as [[y | t] w']; reflexivity.
  - intros F conv p e. rewrite map_err_Err. reflexivity.
  - intros G conv f g x n; split; reflexivity.
  - intros f g x n; split; reflexivity.
Qed.

(** X2 — [map_err] with a handler that returns a [result<Ok, Err>].  The
    declared type is [result<Ok, result<Ok, Err>>]; on [Ok(x)] the
    [return *this;] builds the Err alternative around the receiver, so the
    outcome is [Err(Ok(x))]: it answers [is_err()], [ok()] finds no payload,
    and the handler is not invoked. *)
Theorem X2_map_err_Ok_comes_back_Err
    (op : Err -> M W (result Ok Err)) (x : Ok) (w : W) (n : nat) :
  map_err (result_Ok x) op w = (Returned (result_Err (result_Ok x)), w)
  /\ map_err (result_Ok x) (counted op) (w, n)
     = (Returned (result_Err (result_Ok x)), (w, n))
  /\ is_err (result_Err (result_Ok x : result Ok Err)
             : result Ok (result Ok Err)) = true
  /\ ok (result_Err (result_Ok x : result Ok Err)
         : result Ok (result Ok Err)) w = (Returned None, w).
Proof.
  repeat split.
Qed.

(** X3 — [map] and [map_err] commute, effects included: of the two
    callables only the one for the receiver's variant runs, in either
    order. *)
Theorem X3_map_map_err_commute
    (f : Ok -> M W Ok) (g : Err -> M W Err) (r : result Ok Err) (w : W) :
  (r' <- map r f ;; map_err r' g) w = (r' <- map_err r g ;; map r' f) w.
Proof.
  by_variant r.
  - destruct (f x w) as [[y | t] w']; reflexivity.
  - destruct (g e w) as [[y | t] w']; reflexivity.
Qed.

(** X4 — [map] and [map_err] keep the variant: when the callable keeps the
    payload type and the call returns, the outcome answers [is_ok] and
    [is_err] as the receiver did. *)
Theorem X4_map_keeps_variant
    (f : Ok -> M W Ok) (g : Err -> M W Err)
    (r r' : result Ok Err) (w w' : W) :
  map r f w = (Returned r', w') \/ map_err r g w = (Returned r', w') ->
  is_ok r' = is_ok r /\ is_err r' = is_err r.
Proof.
  by_variant r; intros [H | H]; revert H;
    try (destruct (f x w) as [[y | t] w1]);
    try (destruct (g e w) as [[y | t] w1]);
    intros H; inversion H; subst; split; reflexivity.
Qed.

End MapErr.

(** [Ok(5).map(x => x*2)] returns [Ok(10)], which is Ok as [Ok(5)] was. *)
Lemma X4_map_keeps_variant_witness :
  (map (result_Ok 5 : result Z string) double tt
   = (Returned (result_Ok 10), tt)
   \/ map_err (result_Ok 5 : result Z string) (pure (fun e => e)) tt
      = (Returned (result_Ok 10), tt))
  /\ is_ok (result_Ok 10 : result Z string)
     = is_ok (result_Ok 5 : result Z string)
  /\ is_err (result_Ok 10 : result Z string)
     = is_err (result_Ok 5 : result Z string).
Proof.
  split.
  - left. reflexivity.
  - apply (@X4_map_keeps_variant unit Z string double (pure (fun e => e))
             (result_Ok 5) (result_Ok 10) tt tt).
    left. reflexivity.
Defined.

(** ** get_or_else *)

Section GetOrElse.
Context {W Ok Err Args : Type}.

(** X5 — [get_or_else(f, args...)] is lazy.  On [Ok(x)] it returns [x] and
    does not invoke [f], even an [f] that would throw; on [Err(e)] it
    invokes [f] once on the supplied arguments and returns what [f]
    returns, throws included.  The Err payload is not handed to [f]. *)
Theorem X5_get_or_else_lazy (f : Args -> M W Ok) (args : Args) (w : W)
    (n : nat) :
  (forall x : Ok,
      get_or_else (result_Ok x : result Ok Err) (counted f) args (w, n)
      = (Returned x, (w, n)))
  /\ (forall (x : Ok) (what : string),
        get_or_else (result_Ok x : result Ok Err) (failing what) args w
        = (Returned x, w))
  /\ (forall e : Err,
        get_or_else (result_Err e : result Ok Err) f args w = f args w
        /\ get_or_else (result_Err e : result Ok Err) (counted f) args (w, n)
           = (fst (f args w), (snd (f args w), S n)))
  /\ (forall e e' : Err,
        get_or_else (result_Err e : result Ok Err) f args w
        = get_or_else (result_Err e' : result Ok Err) f args w).
Proof.
  repeat split; intros; members; try reflexivity;
    destruct (f args w) as [[y | t] w']; reflexivity.
Qed.

(** X6 — the ways to take the payload through the const-reference
    [get_or] agree.  [get_or(def)] returns the Ok payload when the receiver
    is Ok and [def] when it is Err, and leaves the world alone; it is
    [get_or_else] with the callable that returns [def], and it is [ok()]
    with [def] filled in for the empty optional. *)
Theorem X6_get_or_agreement (r : result Ok Err) (def : Ok) (args : Args)
    (w : W) :
  get_or r def w
  = (Returned (match data r with alt0 x => x | alt1 _ => def end), w)
  /\ get_or_else r (fun _ : Args => ret def) args w = get_or r def w
  /\ get_or r def w
     = (o <- ok r ;;
        ret (match o with Some x => x | None => def end)) w.
Proof.
  by_variant r; repeat split.
Qed.

End GetOrElse.

(** ** Eager and lazy combinators *)

Section EagerLazy.
Context {W Ok Err : Type}.

(** X7 — the eager operators are the lazy combinators at a callable that
    just returns the right operand: [a && b] is [a.and_then(() => b)] and
    [a || b] is [a.or_else(() => b)]. *)
Theorem X7_eager_is_lazy_at_constant (a : result Ok Err) (w : W) :
  (forall Ok2 (b : result Ok2 Err),
      and_then a (fun _ : unit => ret b) tt w = operator_and a b w)
  /\ (forall b : result Ok Err,
        or_else a (fun _ : unit => ret b) tt w = operator_or a b w).
Proof.
  by_variant a; split; intros; reflexivity.
Qed.



End EagerLazy.

(** ** Chains of and_then and or_else *)

Section Chains.
Context {W Ok Err A B : Type}.

(** X10 — [and_then] chains regroup when the first callable keeps the
    receiver's Err type.  For [f] returning a [result<Ok2, Err>] and [g]
    returning any type the Err payload converts to,
    [r.and_then(f, a).and_then(g, b)] is
    [r.and_then(a => f(a).and_then(g, b), a)], with the same result, world
    and throws. *)
Theorem X10_and_then_assoc {Ok2 R3} {conv : Convertible Err R3}
    (f : A -> M W (result Ok2 Err)) (g : B -> M W R3)
    (r : result Ok Err) (a : A) (b : B) (w : W) :
  (r' <- and_then r f a ;; and_then r' g b) w
  = and_then r (fun a' => r' <- f a' ;; and_then r' g b) a w.
Proof.
  by_variant r; reflexivity.
Qed.

(** X11 — the first Err ends an [and_then] chain.  If the first step
    returns [Err(e)], the chain returns [Err(e)] in the world that step
    left, whatever the second callable is: it is not invoked. *)
Theorem X11_and_then_first_Err_wins {Ok2 Ok3}
    (f : A -> M W (result Ok2 Err)) (g : B -> M W (result Ok3 Err))
    (x : Ok) (a : A) (b : B) (e : Err) (w w' : W) :
  f a w = (Returned (result_Err e), w') ->
  (r' <- and_then (result_Ok x : result Ok Err) f a ;; and_then r' g b) w
  = (Returned (result_Err e), w').
Proof.
  intros H. members. rewrite H. reflexivity.
Qed.

(** X12 — [or_else] chains regroup when the first handler keeps the
    receiver's Ok type.  For [f] returning a [result<Ok, Err2>] and [g]
    returning any type the Ok payload converts to,
    [r.or_else(f, a).or_else(g, b)] is
    [r.or_else(a => f(a).or_else(g, b), a)], with the same result, world
    and throws. *)
Theorem X12_or_else_assoc {Err2 R3} {conv : Convertible Ok R3}
    (f : A -> M W (result Ok Err2)) (g : B -> M W R3)
    (r : result Ok Err) (a : A) (b : B) (w : W) :
  (r' <- or_else r f a ;; or_else r' g b) w
  = or_else r (fun a' => r' <- f a' ;; or_else r' g b) a w.
Proof.
  by_variant r; reflexivity.
Qed.

(** X13 — the first Ok ends an [or_else] chain.  If the first handler
    returns [Ok(y)], the chain returns [Ok(y)] in the world that handler
    left, and the second handler is not invoked. *)
Theorem X13_or_else_first_Ok_wins {Err2 Err3}
    (f : A -> M W (result Ok Err2)) (g : B -> M W (result Ok Err3))
    (e : Err) (a : A) (b : B) (y : Ok) (w w' : W) :
  f a w = (Returned (result_Ok y), w') ->
  (r' <- or_else (result_Err e : result Ok Err) f a ;; or_else r' g b) w
  = (Returned (result_Ok y), w').
Proof.
  intros H. members. rewrite H. reflexivity.
Qed.

(** X14 — a throw from the callable comes out of the member as it is, with
    the side effects the callable made before it; the receiver's payload
    is not returned in its place. *)
Theorem X14_callable_throw_propagates {Ok2 Err2}
    (f : A -> M W (result Ok2 Err)) (h : B -> M W (result Ok Err2))
    (a : A) (b : B) (t t' : exception) (w w1 w2 : W) :
  f a w = (Thrown t, w1) ->
  h b w = (Thrown t', w2) ->
  (forall x : Ok,
      and_then (result_Ok x : result Ok Err) f a w = (Thrown t, w1))
  /\ (forall e : Err,
        or_else (result_Err e : result Ok Err) h b w = (Thrown t', w2)).
Proof.
  intros Hf Hh. split; intros; members; assumption.
Qed.

End Chains.

(** [Ok(5).and_then(step, -1).and_then(fail)] is [Err("neg")]: the failing
    callable never runs. *)
Lemma X11_and_then_first_Err_wins_witness :
  step (-1) tt = (Returned (result_Err "neg" : result Z string), tt)
  /\ (r' <- and_then (result_Ok 5 : result Z string) step (-1) ;;
      and_then r' (failing "late" : unit -> M unit (result Z string)) tt) tt
     = (Returned (result_Err "neg"), tt).
Proof.
  split.
  - reflexivity.
  - apply (@X11_and_then_first_Err_wins unit Z string Z unit Z Z
             step (failing "late") 5 (-1) tt "neg"%string tt tt).
    reflexivity.
Defined.

(** [Err("x").or_else(() => Ok(2)).or_else(fail)] is [Ok(2)]. *)
Lemma X13_or_else_first_Ok_wins_witness :
  pure (fun _ : unit => result_Ok 2 : result Z string) tt tt
  = (Returned (result_Ok 2), tt)
  /\ (r' <- or_else (result_Err "x" : result Z string)
              (pure (fun _ : unit => result_Ok 2 : result Z string)) tt ;;
      or_else r' (failing "late" : unit -> M unit (result Z string)) tt) tt
     = (Returned (result_Ok 2), tt).
Proof.
  split.
  - reflexivity.
  - apply (@X13_or_else_first_Ok_wins unit Z string unit unit string string
             (pure (fun _ : unit => result_Ok 2)) (failing "late")
             "x"%string tt tt 2 tt tt).
    reflexivity.
Defined.

(** A callable that ticks the counter and then throws: the throw and the
    tick both come out of [and_then] and [or_else]. *)
Lemma X14_callable_throw_propagates_witness :
  counted (failing "late" : unit -> M unit (result Z string)) tt (tt, O)
  = (Thrown (callable_exception "late"), (tt, 1%nat))
  /\ and_then (result_Ok 5 : result Z string)
       (counted (failing "late" : unit -> M unit (result Z string)))
       tt (tt, O)
     = (Thrown (callable_exception "late"), (tt, 1%nat))
  /\ or_else (result_Err "x" : result Z string)
       (counted (failing "late" : unit -> M unit (result Z string)))
       tt (tt, O)
     = (Thrown (callable_exception "late"), (tt, 1%nat)).
Proof.
  pose proof (@X14_callable_throw_propagates (unit * nat) Z string unit unit
                Z string
                (counted (failing "late")) (counted (failing "late"))
                tt tt (callable_exception "late") (callable_exception "late")
                (tt, O) (tt, 1%nat) (tt, 1%nat) eq_refl eq_refl) as [Ha Ho].
  split; [reflexivity | split; [apply Ha | apply Ho]].
Defined.

(** ** Construction and inspection *)

Section Construction.
Context {W Ok Err : Type}.

(** X15 — a result is determined by what [ok()] and [err()] answer: two
    results with the same answers to both are the same result. *)
Theorem X15_inspection_determines_result (r1 r2 : result Ok Err) (w : W) :
  ok r1 w = ok r2 w ->
  err r1 w = err r2 w ->
  r1 = r2.
Proof.
  destruct r1 as [[x1 | e1]], r2 as [[x2 | e2]]; members;
    intros H1 H2; congruence.
Qed.

(** X16 — the constructors and the inspectors are inverse to each other.
    [result(x)] answers [is_ok], gives [x] at [ok()] and nothing at
    [err()]; [result(e)] is the mirror image; and every result is
    [result(x)] for the [x] its [ok()] holds or [result(e)] for the [e] its
    [err()] holds. *)
Theorem X16_construct_inspect_round_trip (w : W) :
  (forall x : Ok,
      is_ok (result_Ok x : result Ok Err) = true
      /\ ok (result_Ok x : result Ok Err) w = (Returned (Some x), w)
      /\ err (result_Ok x : result Ok Err) w = (Returned None, w))
  /\ (forall e : Err,
        is_err (result_Err e : result Ok Err) = true
        /\ ok (result_Err e : result Ok Err) w = (Returned None, w)
        /\ err (result_Err e : result Ok Err) w = (Returned (Some e), w))
  /\ (forall r : result Ok Err,
        (exists x, ok r w = (Returned (Some x), w) /\ r = result_Ok x)
        \/ (exists e, err r w = (Returned (Some e), w) /\ r = result_Err e)).
Proof.
  repeat split.
  intros r. destruct (result_cases r) as [[x ->] | [e ->]];
    [left; exists x | right; exists e]; split; reflexivity.
Qed.

End Construction.

(** [Ok(5)] and [Ok(5)] answer alike and are equal. *)
Lemma X15_inspection_determines_result_witness :
  ok (result_Ok 5 : result Z string) tt = ok (result_Ok 5 : result Z string) tt
  /\ err (result_Ok 5 : result Z string) tt
     = err (result_Ok 5 : result Z string) tt
  /\ (result_Ok 5 : result Z string) = result_Ok 5.
Proof.
  split; [reflexivity | split; [reflexivity |]].
  apply (@X15_inspection_determines_result unit Z string
           (result_Ok 5) (result_Ok 5) tt); reflexivity.
Defined.

(** ** Conversion in the short-circuit branch *)

Section ShortCircuitConversion.
Context {W Ok Err Args : Type}.

(** X17 — the short-circuit branch of [and_then] and [or_else] converts the
    receiver's payload to whatever type [f] returns, by the constructor
    that type has for it.  When [f] returns a result whose Ok type is the
    receiver's Err type, [Err(e).and_then(f)] is [Ok(e)]; when [f] returns
    a result whose Err type is the receiver's Ok type, [Ok(x).or_else(f)]
    is [Err(x)]; when [f] returns the payload type itself, the payload
    comes back bare.  [f] is not invoked in any of these. *)
Theorem X17_short_circuit_conversion (args : Args) (w : W) (n : nat) :
  (forall E2 (f : Args -> M W (result Err E2)) (e : Err),
      and_then (result_Err e : result Ok Err) (counted f) args (w, n)
      = (Returned (result_Ok e), (w, n)))
  /\ (forall O2 (f : Args -> M W (result O2 Ok)) (x : Ok),
        or_else (result_Ok x : result Ok Err) (counted f) args (w, n)
        = (Returned (result_Err x), (w, n)))
  /\ (forall (f : Args -> M W Err) (e : Err),
        and_then (result_Err e : result Ok Err) (counted f) args (w, n)
        = (Returned e, (w, n)))
  /\ (forall (f : Args -> M W Ok) (x : Ok),
        or_else (result_Ok x : result Ok Err) (counted f) args (w, n)
        = (Returned x, (w, n))).
Proof.
  repeat split.
Qed.

End ShortCircuitConversion.
